(** * Cooking assistant: the classify / branch / respond pipeline

    A shallow embedding of [backend/agents/cooking_assistant.py]: the
    LangGraph state, the three node functions, the router, the graph built
    by [graph_builder] and the FastAPI handler [cooking_endpoint].

    The language model and the ReAct agent executor are collaborators the
    module only calls; they are taken as parameters (functions that return
    a value or raise).  Every call to them is recorded in a list of events,
    so that what a step delegates, and with which arguments, can be stated. *)

From Stdlib Require Import ZArith String Ascii List Lia Relations.
From stdpp Require Import base option list gmap strings.

Local Open Scope string_scope.
Local Open Scope Z_scope.
Local Open Scope list_scope.

(** ** Messages *)

(** [BaseMessage.content] is a [str] or a list of content blocks; only the
    former has a [lower] method. *)
Inductive Content :=
| Text (s : string)
| Blocks (parts : list string).

(** The message classes of [langchain_core.messages] the module meets: the
    user turn the handler seeds the state with, the assistant turns and the
    system instruction. *)
Inductive Message :=
| HumanMessage (c : Content)
| AIMessage (c : Content)
| SystemMessage (c : Content).

Definition content (m : Message) : Content :=
  match m with
  | HumanMessage c | AIMessage c | SystemMessage c => c
  end.

(** [isinstance(m, AIMessage)] *)
Definition isinstance_AIMessage (m : Message) : bool :=
  match m with
  | AIMessage _ => true
  | _ => false
  end.

(** [class State(TypedDict): messages: Annotated[list, add_messages]] *)
#[projections(primitive)] Record State := mkState { messages : list Message }.

(** The reducer of the [messages] channel.  Every message the nodes return
    is freshly created, hence carries an id no earlier message has, and for
    such messages [add_messages] extends the list on the right.  (Messages
    that repeat an id are merged in place by the reducer; a state here is
    the channel's content, whose messages carry distinct ids.) *)
Definition add_messages (left right : list Message) : list Message :=
  left ++ right.

(** A node returns a partial state; the channel reducer merges it. *)
Definition apply_update (state update : State) : State :=
  {| messages := add_messages (messages state) (messages update) |}.

(** ** Exceptions and results *)

(** Exceptions (subclasses of [Exception]), each with the text [str(e)]
    gives.  [OtherException] stands for whatever a collaborator raises. *)
Inductive Exn :=
| IndexError (msg : string)
| AttributeError (msg : string)
| KeyError (msg : string)
| ValueError (msg : string)
| GraphRecursionError (msg : string)
| OtherException (msg : string).

Definition str (e : Exn) : string :=
  match e with
  | IndexError msg | AttributeError msg | KeyError msg
  | ValueError msg | GraphRecursionError msg | OtherException msg => msg
  end.

Inductive Result (A : Type) :=
| Ok (a : A)
| Raise (e : Exn).
Arguments Ok {A} a.
Arguments Raise {A} e.

#[global] Instance Result_ret : MRet Result := fun _ a => Ok a.
#[global] Instance Result_bind : MBind Result := fun _ _ f r =>
  match r with
  | Ok a => f a
  | Raise e => Raise e
  end.

Definition is_ok {A} (r : Result A) : bool :=
  match r with Ok _ => true | Raise _ => false end.

(** ** Python primitives *)

(** [l[i]] with Python's negative indices *)
Definition getitem {A} (l : list A) (i : Z) : Result A :=
  let n := Z.of_nat (length l) in
  let j := if i <? 0 then i + n else i in
  if (j <? 0) || (n <=? j) then Raise (IndexError "list index out of range")
  else match l !! Z.to_nat j with
       | Some x => Ok x
       | None => Raise (IndexError "list index out of range")
       end.

Definition is_upper (c : ascii) : bool :=
  let n := nat_of_ascii c in (65 <=? n)%nat && (n <=? 90)%nat.

Definition lower_char (c : ascii) : ascii :=
  if is_upper c then ascii_of_nat (nat_of_ascii c + 32) else c.

(** [str.lower] on the letters A to Z; other characters are kept.  A text
    with a character outside ASCII still has one after Python's [lower], or
    has a k in its place, and so equals neither of the two words the router
    compares with: the comparisons below agree with Python's. *)
Fixpoint lower (s : string) : string :=
  match s with
  | EmptyString => EmptyString
  | String c s' => String (lower_char c) (lower s')
  end.

(** [c.lower()] for a message content [c] *)
Definition content_lower (c : Content) : Result string :=
  match c with
  | Text s => Ok (lower s)
  | Blocks _ => Raise (AttributeError "'list' object has no attribute 'lower'")
  end.

(** ** Router *)

Definition decide_next_node (state : State) : Result string :=
  last_message ← getitem (messages state) (-1);
  if isinstance_AIMessage last_message then
    c ← content_lower (content last_message);
    if String.eqb c "relevant" then Ok "researcher_agent"
    else
      c' ← content_lower (content last_message);
      if String.eqb c' "irrelevant" then Ok "refusal"
      else Ok "refusal"
  else Ok "refusal".

(** ** Effects: calls to collaborators, recorded *)

(** The argument of [agent_executor_researcher.invoke] *)
Record AgentInput := mkAgentInput { input : Content; chat_history : string }.

Inductive Event :=
| NodeStarted (name : string)
| LoggerCritical (record : list Message)
| LLMInvoke (prompt_messages : list Message)
| AgentInvoke (arg : AgentInput).

(** A computation that has run: the events it caused, in order, and its
    value or the exception that ended it. *)
#[projections(primitive)] Record Run (A : Type) := mkRun {
  events : list Event;
  outcome : Result A
}.
Arguments mkRun {A} events outcome.
Arguments events {A} r.
Arguments outcome {A} r.

#[global] Instance Run_ret : MRet Run := fun _ a => mkRun [] (Ok a).
#[global] Instance Run_bind : MBind Run := fun _ _ f r =>
  match outcome r with
  | Ok a => mkRun (events r ++ events (f a)) (outcome (f a))
  | Raise e => mkRun (events r) (Raise e)
  end.

Definition emit (ev : Event) : Run unit := mkRun [ev] (Ok tt).
Definition lift {A} (r : Result A) : Run A := mkRun [] r.

(** The external calls among the events *)
Definition is_external (ev : Event) : bool :=
  match ev with
  | LLMInvoke _ | AgentInvoke _ => true
  | _ => false
  end.

Definition external_calls {A} (r : Run A) : list Event :=
  filter (fun ev => is_external ev = true) (events r).

Fixpoint agent_inputs (evs : list Event) : list AgentInput :=
  match evs with
  | [] => []
  | AgentInvoke a :: evs' => a :: agent_inputs evs'
  | _ :: evs' => agent_inputs evs'
  end.

Fixpoint llm_inputs (evs : list Event) : list (list Message) :=
  match evs with
  | [] => []
  | LLMInvoke ms :: evs' => ms :: llm_inputs evs'
  | _ :: evs' => llm_inputs evs'
  end.

Fixpoint nodes_started (evs : list Event) : list string :=
  match evs with
  | [] => []
  | NodeStarted n :: evs' => n :: nodes_started evs'
  | _ :: evs' => nodes_started evs'
  end.

(** ** The graph *)

Definition START : string := "__start__".
Definition END : string := "__end__".

(** What [StateGraph] collects: [add_node], [add_edge] and
    [add_conditional_edges] (the router with its label-to-node dict). *)
Record StateGraph := mkGraph {
  nodes : gmap string (State -> Run State);
  edges : list (string * string);
  branches : gmap string ((State -> Result string) * gmap string string)
}.

Definition empty_graph : StateGraph :=
  {| nodes := ∅; edges := []; branches := ∅ |}.

Definition add_node (name : string) (action : State -> Run State)
    (g : StateGraph) : StateGraph :=
  {| nodes := <[name := action]> (nodes g); edges := edges g; branches := branches g |}.

Definition add_edge (start_key end_key : string) (g : StateGraph) : StateGraph :=
  {| nodes := nodes g; edges := edges g ++ [(start_key, end_key)]; branches := branches g |}.

Definition add_conditional_edges (source : string) (path : State -> Result string)
    (path_map : gmap string string) (g : StateGraph) : StateGraph :=
  {| nodes := nodes g; edges := edges g;
     branches := <[source := (path, path_map)]> (branches g) |}.

Definition edge_target (g : StateGraph) (source : string) : option string :=
  snd <$> head (filter (fun e => e.1 = source) (edges g)).

(** Where control goes once [source] has written its update: through the
    branch registered on [source] if there is one (the router reads the
    updated state and its label is resolved in the dict), else along the
    edge leaving [source]; a node nothing leaves ends the run. *)
Definition next_node (g : StateGraph) (source : string) (state : State)
    : Result string :=
  match branches g !! source with
  | Some (path, path_map) =>
      label ← path state;
      match path_map !! label with
      | Some target => Ok target
      | None => Raise (KeyError ("'" +:+ label +:+ "'"))
      end
  | None =>
      match edge_target g source with
      | Some target => Ok target
      | None => Ok END
      end
  end.

(** A node runs: the partial state it returns is merged into the state. *)
Definition run_node (action : State -> Run State) (state : State) : Run State :=
  update ← action state;
  mret (apply_update state update).

(** The steps of a compiled graph from [node] on, at most [limit] of them.
    Every node of the graphs run here has one way out, so a step holds one
    node. *)
Fixpoint run_from (g : StateGraph) (limit : nat) (node : string) (state : State)
    : Run State :=
  if decide (node = END) then mret state
  else
    match limit with
    | O => lift (Raise (GraphRecursionError "Recursion limit reached"))
    | S limit' =>
        match nodes g !! node with
        | None => lift (Raise (ValueError ("unknown node " +:+ node)))
        | Some action =>
            _ ← emit (NodeStarted node);
            state' ← run_node action state;
            target ← lift (next_node g node state');
            run_from g limit' target state'
        end
    end.

Definition recursion_limit : nat := 25.

(** [graph.invoke(graph_input)] *)
Definition invoke (g : StateGraph) (graph_input : State) : Run State :=
  let state := apply_update {| messages := [] |} graph_input in
  first ← lift (next_node g START state);
  run_from g recursion_limit first state.

(** The successor relation of a graph, from its edges and branch dicts *)
Definition graph_step (g : StateGraph) (a b : string) : Prop :=
  (a, b) ∈ edges g \/
  exists path path_map label,
    branches g !! a = Some (path, path_map) /\ path_map !! label = Some b.

(** The position of a node name in the flow of the graph built below *)
Definition depth (node : string) : nat :=
  if String.eqb node START then 0
  else if String.eqb node "classifier_agent" then 1
  else if String.eqb node "researcher_agent" || String.eqb node "refusal" then 2
  else 3.

(** ** HTTP *)

Inductive Body :=
| ResponseBody (response : Content)
| DetailBody (detail : string).

Record HTTPException := mkHTTPException { status_code : Z; detail : string }.

Record HttpResponse := mkResponse { status : Z; body : Body }.

(** What the framework sends for a handler's return value or for the
    [HTTPException] it raised *)
Definition fastapi_response (r : HTTPException + Body) : HttpResponse :=
  match r with
  | inr b => {| status := 200; body := b |}
  | inl exc => {| status := status_code exc; body := DetailBody (detail exc) |}
  end.

(** What goes back to the client: the framework's response, or nothing of
    its own when the handler lets another exception through. *)
Definition respond (r : Result (HTTPException + Body)) : option HttpResponse :=
  match r with
  | Ok x => Some (fastapi_response x)
  | Raise _ => None
  end.

Section Pipeline.

(** [llm.invoke], [agent_executor_researcher.invoke] followed by
    [["output"]], and the classifier prompt imported from [prompts] *)
Variable llm_invoke : list Message -> Result Message.
Variable agent_executor_researcher_invoke : AgentInput -> Result string.
Variable system_prompt_classifier : string.

Definition call_llm (ms : list Message) : Run Message :=
  mkRun [LLMInvoke ms] (llm_invoke ms).

Definition call_agent (a : AgentInput) : Run string :=
  mkRun [AgentInvoke a] (agent_executor_researcher_invoke a).

(** *** Nodes *)

Definition classifier_agent (state : State) : Run State :=
  let system_message := SystemMessage (Text system_prompt_classifier) in
  let messages_with_system := [system_message] ++ messages state in
  _ ← emit (LoggerCritical messages_with_system);
  response_classifier ← call_llm messages_with_system;
  _ ← emit (LoggerCritical [response_classifier]);
  mret {| messages := [response_classifier] |}.

Definition refusal (state : State) : Run State :=
  mret {| messages := [AIMessage (Text "Your Query is not related to Cooking.")] |}.

Definition researcher_agent (state : State) : Run State :=
  m ← lift (getitem (messages state) (-2));
  let user_input := content m in
  response ← call_agent {| input := user_input; chat_history := "" |};
  mret {| messages := [AIMessage (Text response)] |}.

(** *** Graph construction *)

Definition path_map : gmap string string :=
  <["researcher_agent" := "researcher_agent"]>
    (<["refusal" := "refusal"]> ∅).

Definition graph_builder : StateGraph :=
  add_edge "refusal" END
    (add_edge "researcher_agent" END
      (add_conditional_edges "classifier_agent" decide_next_node path_map
        (add_edge START "classifier_agent"
          (add_node "researcher_agent" researcher_agent
            (add_node "refusal" refusal
              (add_node "classifier_agent" classifier_agent empty_graph)))))).

Definition graph : StateGraph := graph_builder.

(** *** Request handler *)

Definition cooking_endpoint (query : string) : Run (HTTPException + Body) :=
  let attempt : Run Body :=
    result ← invoke graph {| messages := [HumanMessage (Text query)] |};
    m ← lift (getitem (messages result) (-1));
    mret (ResponseBody (content m)) in
  match outcome attempt with
  | Ok b => mkRun (events attempt) (Ok (inr b))
  | Raise e =>
      mkRun (events attempt)
        (Ok (inl {| status_code := 500; detail := str e |}))
  end.

End Pipeline.

(** ** Sample collaborators, for running the pipeline on concrete requests *)

Module Scenario.

Definition prompt : string := "Classify the query as relevant or irrelevant.".

Definition llm_says (verdict : string) (ms : list Message) : Result Message :=
  Ok (AIMessage (Text verdict)).

Definition llm_down (ms : list Message) : Result Message :=
  Raise (OtherException "Connection error.").

Definition agent_answers (answer : string) (a : AgentInput) : Result string :=
  Ok answer.

Definition agent_down (a : AgentInput) : Result string :=
  Raise (OtherException "Agent stopped without output.").

Definition llm_blocks (ms : list Message) : Result Message :=
  Ok (AIMessage (Blocks ["relevant"])).

Definition egg_query : string := "How do I boil an egg?".
Definition egg_answer : string := "Place egg in boiling water for 7 minutes.".
Definition france_query : string := "What is the capital of France?".

Definition asked (q verdict : string) : State :=
  {| messages := [HumanMessage (Text q); AIMessage (Text verdict)] |}.

End Scenario.

(** * Properties *)

(** ** Indexing from the end *)

Lemma getitem_nil {A} (i : Z) :
  getitem (@nil A) i = Raise (IndexError "list index out of range").
Proof.
  unfold getitem. cbn [length]. change (Z.of_nat 0) with 0.
  rewrite Z.add_0_r.
  destruct (i <? 0) eqn:Hneg; [rewrite Hneg; reflexivity|].
  rewrite Hneg. cbn [orb].
  destruct (0 <=? i) eqn:Hle; [reflexivity|]. lia.
Qed.

Lemma getitem_from_end {A} (l : list A) (k : nat) (x : A) :
  (0 < k)%nat -> (k <= length l)%nat ->
  l !! (length l - k)%nat = Some x ->
  getitem l (- Z.of_nat k) = Ok x.
Proof.
  intros Hk Hlen Hx. unfold getitem.
  replace (- Z.of_nat k <? 0) with true by (symmetry; apply Z.ltb_lt; lia).
  replace (- Z.of_nat k + Z.of_nat (length l) <? 0) with false
    by (symmetry; apply Z.ltb_ge; lia).
  replace (Z.of_nat (length l) <=? - Z.of_nat k + Z.of_nat (length l)) with false
    by (symmetry; apply Z.leb_gt; lia).
  cbn [orb].
  replace (Z.to_nat (- Z.of_nat k + Z.of_nat (length l))) with (length l - k)%nat by lia.
  rewrite Hx. reflexivity.
Qed.

Lemma getitem_too_short {A} (l : list A) (k : nat) :
  (length l < k)%nat ->
  getitem l (- Z.of_nat k) = Raise (IndexError "list index out of range").
Proof.
  intros Hlen. unfold getitem.
  replace (- Z.of_nat k <? 0) with true by (symmetry; apply Z.ltb_lt; lia).
  replace (- Z.of_nat k + Z.of_nat (length l) <? 0) with true
    by (symmetry; apply Z.ltb_lt; lia).
  reflexivity.
Qed.

Lemma getitem_last {A} (l : list A) (x : A) :
  last l = Some x -> getitem l (-1) = Ok x.
Proof.
  intros Hlast. apply last_Some in Hlast as [pre ->].
  apply (getitem_from_end (pre ++ [x]) 1 x).
  - lia.
  - rewrite length_app. cbn. lia.
  - rewrite length_app. cbn [length].
    replace (length pre + 1 - 1)%nat with (length pre + 0)%nat by lia.
    rewrite lookup_app_r by lia.
    replace (length pre + 0 - length pre)%nat with 0%nat by lia. reflexivity.
Qed.

Lemma getitem_second_to_last {A} (pre : list A) (x y : A) :
  getitem (pre ++ [x; y]) (-2) = Ok x.
Proof.
  apply (getitem_from_end (pre ++ [x; y]) 2 x).
  - lia.
  - rewrite length_app. cbn. lia.
  - rewrite length_app. cbn [length].
    replace (length pre + 2 - 2)%nat with (length pre + 0)%nat by lia.
    rewrite lookup_app_r by lia.
    replace (length pre + 0 - length pre)%nat with 0%nat by lia. reflexivity.
Qed.

(** A list of two or more elements ends in two elements. *)
Lemma two_at_the_end {A} (l : list A) :
  (2 <= length l)%nat -> exists pre x y, l = pre ++ [x; y].
Proof.
  intros Hlen.
  destruct (decide (l = [])) as [->|Hne]; [cbn in Hlen; lia|].
  destruct (exists_last Hne) as [l' [y ->]].
  destruct (decide (l' = [])) as [->|Hne']; [cbn in Hlen; lia|].
  destruct (exists_last Hne') as [pre [x ->]].
  exists pre, x, y. rewrite <- app_assoc. reflexivity.
Qed.

(** ** The router *)

Lemma router_on_text (state : State) (s : string) :
  last (messages state) = Some (AIMessage (Text s)) ->
  decide_next_node state =
    Ok (if String.eqb (lower s) "relevant" then "researcher_agent" else "refusal").
Proof.
  intros Hlast. unfold decide_next_node.
  rewrite (getitem_last _ _ Hlast). cbn.
  destruct (String.eqb (lower s) "relevant");
    [reflexivity | destruct (String.eqb (lower s) "irrelevant"); reflexivity].
Qed.

Lemma router_on_other (state : State) (m : Message) :
  last (messages state) = Some m -> isinstance_AIMessage m = false ->
  decide_next_node state = Ok "refusal".
Proof.
  intros Hlast Hcls. unfold decide_next_node.
  rewrite (getitem_last _ _ Hlast). cbn. rewrite Hcls. reflexivity.
Qed.

Lemma router_labels (state : State) (label : string) :
  decide_next_node state = Ok label ->
  label = "researcher_agent" \/ label = "refusal".
Proof.
  unfold decide_next_node.
  destruct (getitem (messages state) (-1)) as [m|e]; cbn; [|discriminate].
  destruct (isinstance_AIMessage m); [|intros [= <-]; right; reflexivity].
  destruct (content_lower (content m)) as [c|e]; cbn; [|discriminate].
  destruct (String.eqb c "relevant"); [intros [= <-]; left; reflexivity|].
  destruct (String.eqb c "irrelevant"); intros [= <-]; right; reflexivity.
Qed.

(** C1, as stated, fails: on an assistant-authored last message whose
    content is a list of blocks, not text, the router selects nothing; the
    [lower] call raises [AttributeError]. *)
Lemma router_raises_on_block_content :
  decide_next_node
    {| messages := [HumanMessage (Text "How do I boil an egg?");
                    AIMessage (Blocks ["relevant"])] |}
    = Raise (AttributeError "'list' object has no attribute 'lower'")
  /\ ~ (forall state m,
          last (messages state) = Some m ->
          isinstance_AIMessage m = true ->
          decide_next_node state = Ok "researcher_agent"
          \/ decide_next_node state = Ok "refusal").
Proof.
  split; [reflexivity|].
  intros Hselects.
  destruct (Hselects
              {| messages := [HumanMessage (Text "How do I boil an egg?");
                              AIMessage (Blocks ["relevant"])] |}
              (AIMessage (Blocks ["relevant"])) eq_refl eq_refl) as [H|H];
    discriminate H.
Qed.

(** C1, amended.  When the last message is an assistant message with text [s], the
    router selects the Research step exactly when [s], lowercased, is
    "relevant"; it selects Refusal when [s] lowercased is "irrelevant" and
    for every other text; when the last message is not an assistant
    message, it selects Refusal. *)
Theorem router_decision_rule (state : State) (m : Message) :
  last (messages state) = Some m ->
  (forall s, m = AIMessage (Text s) ->
     (decide_next_node state = Ok "researcher_agent" <-> lower s = "relevant") /\
     (lower s = "irrelevant" -> decide_next_node state = Ok "refusal") /\
     (lower s <> "relevant" -> decide_next_node state = Ok "refusal")) /\
  (isinstance_AIMessage m = false -> decide_next_node state = Ok "refusal").
Proof.
  intros Hlast. split.
  - intros s ->. rewrite (router_on_text _ _ Hlast).
    destruct (String.eqb_spec (lower s) "relevant") as [Heq|Hne].
    + split; [split; [intros _; exact Heq | reflexivity] | split].
      * intros Hirr. rewrite Heq in Hirr. discriminate Hirr.
      * intros Hne. contradiction.
    + split; [split; [discriminate | intros Heq; contradiction] | split];
        reflexivity.
  - intros Hcls. exact (router_on_other _ _ Hlast Hcls).
Qed.

Lemma router_decision_rule_witness :
  decide_next_node (Scenario.asked Scenario.egg_query "Relevant") = Ok "researcher_agent"
  /\ decide_next_node (Scenario.asked Scenario.egg_query "maybe?") = Ok "refusal"
  /\ decide_next_node {| messages := [HumanMessage (Text "relevant")] |} = Ok "refusal".
Proof.
  split; [|split].
  - destruct (router_decision_rule (Scenario.asked Scenario.egg_query "Relevant")
                (AIMessage (Text "Relevant")) eq_refl) as [Hai _].
    destruct (Hai "Relevant" eq_refl) as [[_ Hrel] _].
    apply Hrel. reflexivity.
  - destruct (router_decision_rule (Scenario.asked Scenario.egg_query "maybe?")
                (AIMessage (Text "maybe?")) eq_refl) as [Hai _].
    destruct (Hai "maybe?" eq_refl) as [_ [_ Hother]].
    apply Hother. discriminate.
  - destruct (router_decision_rule {| messages := [HumanMessage (Text "relevant")] |}
                (HumanMessage (Text "relevant")) eq_refl) as [_ Hnon].
    apply Hnon. reflexivity.
Defined.

(** C7, as stated, fails: on a state with no message the router raises
    [IndexError], and on an assistant message whose content is a list of
    blocks it raises [AttributeError]; so it does not return a selection
    for every state. *)
Lemma router_not_total :
  decide_next_node {| messages := [] |}
    = Raise (IndexError "list index out of range")
  /\ decide_next_node {| messages := [AIMessage (Blocks ["relevant"])] |}
    = Raise (AttributeError "'list' object has no attribute 'lower'")
  /\ ~ (forall state, exists label, decide_next_node state = Ok label).
Proof.
  split; [reflexivity | split; [reflexivity|]].
  intros Htotal. destruct (Htotal {| messages := [] |}) as [label Hlabel].
  discriminate Hlabel.
Qed.

(** C7, amended.  On every state that has a last message which is either
    not an assistant message or has text content, the router returns a
    selection, one of Research and Refusal, without raising; and its
    selection is a function of the last message alone (any state with the
    same last message gets the same selection). *)
Theorem router_total_after_classifier (state state' : State) (m : Message) :
  last (messages state) = Some m ->
  (isinstance_AIMessage m = true -> exists s, content m = Text s) ->
  last (messages state') = Some m ->
  (exists label, decide_next_node state = Ok label /\
     (label = "researcher_agent" \/ label = "refusal"))
  /\ decide_next_node state' = decide_next_node state.
Proof.
  intros Hlast Htext Hlast'.
  assert (Hfun : forall st, last (messages st) = Some m ->
            decide_next_node st =
              match m with
              | AIMessage (Text s) =>
                  Ok (if String.eqb (lower s) "relevant"
                      then "researcher_agent" else "refusal")
              | AIMessage (Blocks _) =>
                  Raise (AttributeError "'list' object has no attribute 'lower'")
              | _ => Ok "refusal"
              end).
  { intros st Hst. destruct m as [c|[s|parts]|c].
    - apply (router_on_other _ _ Hst). reflexivity.
    - apply (router_on_text _ _ Hst).
    - unfold decide_next_node. rewrite (getitem_last _ _ Hst). reflexivity.
    - apply (router_on_other _ _ Hst). reflexivity. }
  split.
  - rewrite (Hfun _ Hlast). destruct m as [c|[s|parts]|c].
    + eexists; split; [reflexivity | right; reflexivity].
    + destruct (String.eqb (lower s) "relevant");
        eexists; split; try reflexivity; [left | right]; reflexivity.
    + destruct (Htext eq_refl) as [s Hs]. discriminate Hs.
    + eexists; split; [reflexivity | right; reflexivity].
  - rewrite (Hfun _ Hlast), (Hfun _ Hlast'). reflexivity.
Qed.

Lemma router_total_after_classifier_witness :
  (exists label,
     decide_next_node (Scenario.asked Scenario.france_query "irrelevant") = Ok label /\
     (label = "researcher_agent" \/ label = "refusal"))
  /\ decide_next_node {| messages := [AIMessage (Text "irrelevant")] |}
     = decide_next_node (Scenario.asked Scenario.france_query "irrelevant").
Proof.
  apply (router_total_after_classifier
           (Scenario.asked Scenario.france_query "irrelevant")
           {| messages := [AIMessage (Text "irrelevant")] |}
           (AIMessage (Text "irrelevant"))).
  - reflexivity.
  - intros _. exists "irrelevant". reflexivity.
  - reflexivity.
Defined.

(** ** Running a graph *)

Lemma run_from_END (g : StateGraph) (limit : nat) (state : State) :
  run_from g limit END state = mret state.
Proof. destruct limit; reflexivity. Qed.

Lemma run_from_node (g : StateGraph) (limit : nat) (node : string)
    (action : State -> Run State) (state : State) :
  node <> END -> nodes g !! node = Some action ->
  run_from g (S limit) node state =
    (_ ← emit (NodeStarted node);
     state' ← run_node action state;
     target ← lift (next_node g node state');
     run_from g limit target state').
Proof.
  intros Hne Hnode. cbn [run_from].
  destruct (decide (node = END)) as [Heq|_]; [contradiction|].
  rewrite Hnode. reflexivity.
Qed.

(** The events and the outcome of a sequence of two computations *)
Lemma bind_events {A B} (r : Run A) (f : A -> Run B) :
  events (r ≫= f) =
    match outcome r with
    | Ok a => events r ++ events (f a)
    | Raise _ => events r
    end.
Proof. unfold mbind, Run_bind. destruct (outcome r); reflexivity. Qed.

Lemma bind_outcome {A B} (r : Run A) (f : A -> Run B) :
  outcome (r ≫= f) =
    match outcome r with
    | Ok a => outcome (f a)
    | Raise e => Raise e
    end.
Proof. unfold mbind, Run_bind. destruct (outcome r); reflexivity. Qed.

Lemma lift_ok_bind {A B} (a : A) (f : A -> Run B) : lift (Ok a) ≫= f = f a.
Proof. reflexivity. Qed.

Lemma lift_raise_bind {A B} (e : Exn) (f : A -> Run B) :
  lift (Raise e) ≫= f = lift (Raise e).
Proof. reflexivity. Qed.

Lemma bind_ret_r {A} (r : Run A) : r ≫= mret = r.
Proof.
  unfold mbind, Run_bind, mret, Run_ret.
  destruct r as [evs [a|e]]; cbn; [rewrite app_nil_r|]; reflexivity.
Qed.

Lemma bind_ext {A B} (r : Run A) (f g : A -> Run B) :
  (forall a, f a = g a) -> r ≫= f = r ≫= g.
Proof.
  intros Hfg. unfold mbind, Run_bind.
  destruct (outcome r) as [a|e]; [rewrite (Hfg a)|]; reflexivity.
Qed.

Section PipelineFacts.

Variable llm_invoke : list Message -> Result Message.
Variable agent_executor_researcher_invoke : AgentInput -> Result string.
Variable system_prompt_classifier : string.

Local Abbreviation classifier := (classifier_agent llm_invoke system_prompt_classifier).
Local Abbreviation researcher := (researcher_agent agent_executor_researcher_invoke).
Local Abbreviation the_graph :=
  (graph llm_invoke agent_executor_researcher_invoke system_prompt_classifier).
Local Abbreviation endpoint :=
  (cooking_endpoint llm_invoke agent_executor_researcher_invoke system_prompt_classifier).

(** *** What [graph_builder] registered *)

Lemma node_classifier : nodes the_graph !! "classifier_agent" = Some classifier.
Proof. reflexivity. Qed.

Lemma node_researcher : nodes the_graph !! "researcher_agent" = Some researcher.
Proof. reflexivity. Qed.

Lemma node_refusal : nodes the_graph !! "refusal" = Some refusal.
Proof. reflexivity. Qed.

Lemma graph_edges :
  edges the_graph =
    [(START, "classifier_agent"); ("researcher_agent", END); ("refusal", END)].
Proof. reflexivity. Qed.

Lemma graph_branches :
  branches the_graph = {[ "classifier_agent" := (decide_next_node, path_map) ]}.
Proof. reflexivity. Qed.

Lemma path_map_lookup (label : string) :
  path_map !! label =
    if String.eqb label "researcher_agent" then Some "researcher_agent"
    else if String.eqb label "refusal" then Some "refusal"
    else None.
Proof.
  unfold path_map.
  destruct (String.eqb_spec label "researcher_agent") as [->|Hne1].
  - apply lookup_insert_eq.
  - rewrite lookup_insert_ne by congruence.
    destruct (String.eqb_spec label "refusal") as [->|Hne2].
    + apply lookup_insert_eq.
    + rewrite lookup_insert_ne by congruence. apply lookup_empty.
Qed.

Lemma next_from_START (state : State) :
  next_node the_graph START state = Ok "classifier_agent".
Proof. reflexivity. Qed.

Lemma next_from_classifier (state : State) :
  next_node the_graph "classifier_agent" state =
    (label ← decide_next_node state;
     match path_map !! label with
     | Some target => Ok target
     | None => Raise (KeyError ("'" +:+ label +:+ "'"))
     end).
Proof. reflexivity. Qed.

Lemma next_from_researcher (state : State) :
  next_node the_graph "researcher_agent" state = Ok END.
Proof. reflexivity. Qed.

Lemma next_from_refusal (state : State) :
  next_node the_graph "refusal" state = Ok END.
Proof. reflexivity. Qed.


(** *** One request through the graph *)

Lemma after_classifier (state : State) :
  (target ← lift (next_node the_graph "classifier_agent" state);
   run_from the_graph 24 target state) =
  (label ← lift (decide_next_node state);
   if String.eqb label "researcher_agent" then
     _ ← emit (NodeStarted "researcher_agent");
     run_node researcher state
   else
     _ ← emit (NodeStarted "refusal");
     run_node refusal state).
Proof.
  rewrite next_from_classifier.
  destruct (decide_next_node state) as [label|e] eqn:Hlabel; [|reflexivity].
  destruct (router_labels _ _ Hlabel) as [-> | ->].
  - change (emit (NodeStarted "researcher_agent") ≫= (fun _ =>
              run_node researcher state ≫= mret) =
            emit (NodeStarted "researcher_agent") ≫= (fun _ =>
              run_node researcher state)).
    apply bind_ext; intros _. apply bind_ret_r.
  - reflexivity.
Qed.

Lemma invoke_runs (state : State) :
  invoke the_graph state =
    (_ ← emit (NodeStarted "classifier_agent");
     state' ← run_node classifier state;
     label ← lift (decide_next_node state');
     if String.eqb label "researcher_agent" then
       _ ← emit (NodeStarted "researcher_agent");
       run_node researcher state'
     else
       _ ← emit (NodeStarted "refusal");
       run_node refusal state').
Proof.
  unfold invoke. rewrite next_from_START.
  change (apply_update {| messages := [] |} state) with state.
  rewrite lift_ok_bind. unfold recursion_limit.
  rewrite (run_from_node _ _ "classifier_agent" classifier)
    by (reflexivity || (unfold END; discriminate)).
  apply bind_ext; intros _. apply bind_ext; intros state'.
  apply after_classifier.
Qed.

(** *** The nodes *)

Lemma classifier_runs (state : State) :
  classifier state =
    let ms := [SystemMessage (Text system_prompt_classifier)] ++ messages state in
    match llm_invoke ms with
    | Ok verdict =>
        mkRun [LoggerCritical ms; LLMInvoke ms; LoggerCritical [verdict]]
              (Ok {| messages := [verdict] |})
    | Raise e => mkRun [LoggerCritical ms; LLMInvoke ms] (Raise e)
    end.
Proof.
  unfold classifier_agent, call_llm. cbv zeta.
  destruct (llm_invoke _) as [verdict|e]; reflexivity.
Qed.

Lemma researcher_runs (state : State) (pre : list Message) (m v : Message) :
  messages state = pre ++ [m; v] ->
  researcher state =
    let question := {| input := content m; chat_history := "" |} in
    mkRun [AgentInvoke question]
          (answer ← agent_executor_researcher_invoke question;
           Ok {| messages := [AIMessage (Text answer)] |}).
Proof.
  intros Hms. unfold researcher_agent, call_agent. rewrite Hms.
  rewrite getitem_second_to_last. rewrite lift_ok_bind. cbv zeta.
  destruct (agent_executor_researcher_invoke _) as [answer|e]; reflexivity.
Qed.

Lemma researcher_short (state : State) :
  (length (messages state) < 2)%nat ->
  researcher state = lift (Raise (IndexError "list index out of range")).
Proof.
  intros Hlen. unfold researcher_agent.
  change (-2) with (- Z.of_nat 2).
  rewrite (getitem_too_short _ 2 Hlen). reflexivity.
Qed.

Lemma researcher_asks_second_to_last_aux (state : State) :
  (2 <= length (messages state))%nat ->
  exists m,
    messages state !! (length (messages state) - 2)%nat = Some m /\
    events (researcher state) = [AgentInvoke {| input := content m; chat_history := "" |}].
Proof.
  intros Hlen. destruct (two_at_the_end _ Hlen) as (pre & m & v & Hms).
  exists m. split.
  - rewrite Hms, length_app. cbn [length].
    replace (length pre + 2 - 2)%nat with (length pre + 0)%nat by lia.
    rewrite lookup_app_r by lia.
    replace (length pre + 0 - length pre)%nat with 0%nat by lia. reflexivity.
  - rewrite (researcher_runs _ _ _ _ Hms). reflexivity.
Qed.

(** C5. On every state the Refusal step returns, causes no event (so no
    call to the language model or to the agent), and leaves the state
    extended by exactly one assistant message with the fixed text. *)
Theorem refusal_appends_fixed_message (state : State) :
  refusal state =
    mkRun [] (Ok {| messages := [AIMessage (Text "Your Query is not related to Cooking.")] |})
  /\ run_node refusal state =
    mkRun [] (Ok {| messages := messages state ++
                      [AIMessage (Text "Your Query is not related to Cooking.")] |})
  /\ external_calls (refusal state) = []
  /\ is_ok (outcome (refusal state)) = true.
Proof. repeat split. Qed.

(** C4. On a state with at least two messages the Research step makes one
    call to the agent, whose question is the content of the second-to-last
    message; when the agent returns, the step's update is one assistant
    message holding the agent's output, which the state is extended by. *)
Theorem researcher_asks_second_to_last (state : State) :
  (2 <= length (messages state))%nat ->
  exists m,
    messages state !! (length (messages state) - 2)%nat = Some m /\
    let question := {| input := content m; chat_history := "" |} in
    events (researcher state) = [AgentInvoke question] /\
    outcome (researcher state) =
      (answer ← agent_executor_researcher_invoke question;
       Ok {| messages := [AIMessage (Text answer)] |}) /\
    outcome (run_node researcher state) =
      (answer ← agent_executor_researcher_invoke question;
       Ok {| messages := messages state ++ [AIMessage (Text answer)] |}).
Proof.
  intros Hlen. destruct (two_at_the_end _ Hlen) as (pre & m & v & Hms).
  exists m. split.
  - rewrite Hms, length_app. cbn [length].
    replace (length pre + 2 - 2)%nat with (length pre + 0)%nat by lia.
    rewrite lookup_app_r by lia.
    replace (length pre + 0 - length pre)%nat with 0%nat by lia. reflexivity.
  - cbv zeta. unfold run_node. rewrite (researcher_runs _ _ _ _ Hms). cbv zeta.
    split; [reflexivity | split; [reflexivity|]].
    destruct (agent_executor_researcher_invoke _) as [answer|e]; reflexivity.
Qed.

(** C10. Two states with at least two messages each whose second-to-last
    messages have the same content make the Research step issue the same
    calls: same question, same chat history, whatever their other
    messages, the last one included. *)
Theorem researcher_input_ignores_verdict (state state' : State) (m m' : Message) :
  (2 <= length (messages state))%nat ->
  (2 <= length (messages state'))%nat ->
  messages state !! (length (messages state) - 2)%nat = Some m ->
  messages state' !! (length (messages state') - 2)%nat = Some m' ->
  content m = content m' ->
  agent_inputs (events (researcher state)) = agent_inputs (events (researcher state'))
  /\ agent_inputs (events (researcher state))
     = [{| input := content m; chat_history := "" |}].
Proof.
  intros Hlen Hlen' Hm Hm' Hcontent.
  destruct (researcher_asks_second_to_last_aux state Hlen) as (x & Hx & Hev).
  destruct (researcher_asks_second_to_last_aux state' Hlen') as (x' & Hx' & Hev').
  rewrite Hm in Hx. injection Hx as <-.
  rewrite Hm' in Hx'. injection Hx' as <-.
  rewrite Hev, Hev', Hcontent. split; reflexivity.
Qed.

(** C3, amended.  The Classifier's one call to the language model gets the
    system instruction followed by every message of the state, in order.
    The Research step calls the agent once when the state has at least two
    messages, and not at all otherwise; the call gets the content of the
    second-to-last message as its question and an empty chat history,
    nothing else of the state. *)
Theorem delegated_call_arguments (state : State) :
  llm_inputs (events (classifier state))
    = [[SystemMessage (Text system_prompt_classifier)] ++ messages state]
  /\ Forall (fun a => chat_history a = "") (agent_inputs (events (researcher state)))
  /\ agent_inputs (events (researcher state)) =
       if decide (2 <= length (messages state))%nat then
         match messages state !! (length (messages state) - 2)%nat with
         | Some m => [{| input := content m; chat_history := "" |}]
         | None => []
         end
       else [].
Proof.
  split; [|split].
  - rewrite classifier_runs. cbv zeta.
    destruct (llm_invoke _); reflexivity.
  - destruct (le_lt_dec 2 (length (messages state))) as [Hlen|Hlen].
    + destruct (researcher_asks_second_to_last_aux state Hlen) as (m & _ & ->).
      repeat constructor.
    + rewrite (researcher_short _ Hlen). constructor.
  - destruct (decide (2 <= length (messages state))%nat) as [Hlen|Hlen].
    + destruct (researcher_asks_second_to_last_aux state Hlen) as (m & -> & ->).
      reflexivity.
    + assert (Hshort : (length (messages state) < 2)%nat) by lia.
      rewrite (researcher_short _ Hshort). reflexivity.
Qed.

Lemma classifier_step (state : State) :
  run_node classifier state =
    let ms := [SystemMessage (Text system_prompt_classifier)] ++ messages state in
    match llm_invoke ms with
    | Ok verdict =>
        mkRun [LoggerCritical ms; LLMInvoke ms; LoggerCritical [verdict]]
              (Ok {| messages := messages state ++ [verdict] |})
    | Raise e => mkRun [LoggerCritical ms; LLMInvoke ms] (Raise e)
    end.
Proof.
  unfold run_node. rewrite classifier_runs. cbv zeta.
  destruct (llm_invoke _) as [verdict|e]; reflexivity.
Qed.

(** *** The whole run, case by case *)

Lemma invoke_cases (state : State) :
  invoke the_graph state =
    let ms := [SystemMessage (Text system_prompt_classifier)] ++ messages state in
    match llm_invoke ms with
    | Raise e =>
        mkRun [NodeStarted "classifier_agent"; LoggerCritical ms; LLMInvoke ms]
              (Raise e)
    | Ok verdict =>
        let state' := {| messages := messages state ++ [verdict] |} in
        let before := [NodeStarted "classifier_agent"; LoggerCritical ms;
                       LLMInvoke ms; LoggerCritical [verdict]] in
        match decide_next_node state' with
        | Raise e => mkRun before (Raise e)
        | Ok label =>
            if String.eqb label "researcher_agent" then
              mkRun (before ++ [NodeStarted "researcher_agent"]
                       ++ events (run_node researcher state'))
                    (outcome (run_node researcher state'))
            else
              mkRun (before ++ [NodeStarted "refusal"])
                    (Ok {| messages := messages state' ++
                             [AIMessage (Text "Your Query is not related to Cooking.")] |})
        end
    end.
Proof.
  rewrite invoke_runs, classifier_step. cbv zeta.
  destruct (llm_invoke _) as [verdict|e]; [|reflexivity].
  set (state' := {| messages := messages state ++ [verdict] |}).
  unfold mbind at 1 2, Run_bind at 1 2. cbn [outcome events emit].
  destruct (decide_next_node state') as [label|e]; [|reflexivity].
  rewrite lift_ok_bind.
  destruct (String.eqb label "researcher_agent"); reflexivity.
Qed.

Lemma researcher_step_events (state : State) :
  nodes_started (events (run_node researcher state)) = [].
Proof.
  unfold run_node.
  destruct (le_lt_dec 2 (length (messages state))) as [Hlen|Hlen].
  - destruct (two_at_the_end _ Hlen) as (pre & m & v & Hms).
    rewrite (researcher_runs _ _ _ _ Hms). cbv zeta.
    destruct (agent_executor_researcher_invoke _); reflexivity.
  - rewrite (researcher_short _ Hlen). reflexivity.
Qed.

Lemma nodes_started_app (evs evs' : list Event) :
  nodes_started (evs ++ evs') = nodes_started evs ++ nodes_started evs'.
Proof.
  induction evs as [|ev evs IH]; [reflexivity|].
  destruct ev; cbn; rewrite IH; reflexivity.
Qed.

(** The nodes a run starts, by what the model call and the router did *)
Lemma nodes_of_run (state : State) :
  nodes_started (events (invoke the_graph state)) =
    match llm_invoke ([SystemMessage (Text system_prompt_classifier)] ++ messages state) with
    | Raise _ => ["classifier_agent"]
    | Ok verdict =>
        match decide_next_node {| messages := messages state ++ [verdict] |} with
        | Raise _ => ["classifier_agent"]
        | Ok label => ["classifier_agent"; label]
        end
    end.
Proof.
  rewrite invoke_cases. cbv zeta.
  destruct (llm_invoke _) as [verdict|e]; [|reflexivity].
  destruct (decide_next_node _) as [label|e] eqn:Hlabel; [|reflexivity].
  destruct (router_labels _ _ Hlabel) as [-> | ->].
  - cbn [String.eqb Ascii.eqb Bool.eqb events].
    rewrite !nodes_started_app, researcher_step_events. reflexivity.
  - reflexivity.
Qed.

Lemma completed_request (query : string) (final : State) :
  outcome (invoke the_graph {| messages := [HumanMessage (Text query)] |}) = Ok final ->
  exists verdict answer,
    llm_invoke [SystemMessage (Text system_prompt_classifier); HumanMessage (Text query)]
      = Ok verdict /\
    messages final = [HumanMessage (Text query); verdict; AIMessage (Text answer)].
Proof.
  rewrite invoke_cases. cbv zeta. cbn [messages app].
  destruct (llm_invoke _) as [verdict|e]; [|discriminate].
  destruct (decide_next_node _) as [label|e]; [|discriminate].
  destruct (String.eqb label "researcher_agent").
  - cbn [outcome]. unfold run_node.
    rewrite (researcher_runs {| messages := [HumanMessage (Text query); verdict] |}
               [] (HumanMessage (Text query)) verdict eq_refl).
    cbv zeta.
    destruct (agent_executor_researcher_invoke _) as [answer|e]; [|discriminate].
    intros [= <-]. exists verdict, answer. split; reflexivity.
  - intros [= <-]. exists verdict, "Your Query is not related to Cooking.".
    split; reflexivity.
Qed.

(** C2, amended.  When a request completes, the final state holds exactly
    three messages: the user's message, the message the Classifier's model
    call returned, and one further assistant message. *)
Theorem final_state_of_completed_request (query : string) (final : State) :
  outcome (invoke the_graph {| messages := [HumanMessage (Text query)] |}) = Ok final ->
  length (messages final) = 3%nat /\
  exists verdict answer,
    llm_invoke [SystemMessage (Text system_prompt_classifier); HumanMessage (Text query)]
      = Ok verdict /\
    messages final = [HumanMessage (Text query); verdict; AIMessage answer].
Proof.
  intros Hdone. destruct (completed_request _ _ Hdone) as (verdict & answer & Hllm & ->).
  split; [reflexivity|]. exists verdict, (Text answer). split; [exact Hllm | reflexivity].
Qed.

(** C6. When the graph run on the request's query completes, the handler
    answers 200 with the content of the final state's last message under
    "response"; when it raises [e], the handler answers 500 with [str e]
    under "detail"; in no case does the handler let an exception out. *)
Theorem endpoint_responses (query : string) :
  let run := invoke the_graph {| messages := [HumanMessage (Text query)] |} in
  (forall final, outcome run = Ok final ->
     exists m, last (messages final) = Some m /\
       respond (outcome (endpoint query))
         = Some {| status := 200; body := ResponseBody (content m) |})
  /\ (forall e, outcome run = Raise e ->
       respond (outcome (endpoint query))
         = Some {| status := 500; body := DetailBody (str e) |})
  /\ is_ok (outcome (endpoint query)) = true.
Proof.
  cbv zeta. unfold cooking_endpoint. cbv zeta. rewrite bind_outcome.
  destruct (outcome (invoke _ _)) as [final|e] eqn:Hrun.
  - destruct (completed_request _ _ Hrun) as (verdict & answer & _ & Hfinal).
    rewrite bind_outcome. cbn [lift outcome]. rewrite Hfinal.
    repeat split.
    + intros final' [= <-]. exists (AIMessage (Text answer)).
      rewrite Hfinal. split; reflexivity.
    + discriminate.
  - repeat split.
    + discriminate.
    + intros e' [= <-]. reflexivity.
Qed.

(** *** The shape of the graph *)

Lemma graph_step_cases (a b : string) :
  graph_step the_graph a b <->
    (a = START /\ b = "classifier_agent")
    \/ (a = "classifier_agent" /\ (b = "researcher_agent" \/ b = "refusal"))
    \/ ((a = "researcher_agent" \/ a = "refusal") /\ b = END).
Proof.
  unfold graph_step. rewrite graph_edges, graph_branches. split.
  - intros [Hedge | (path & pm & label & Hbranch & Htarget)].
    + rewrite !elem_of_cons, elem_of_nil in Hedge.
      destruct Hedge as [[= -> ->] | [[= -> ->] | [[= -> ->] | []]]]; tauto.
    + apply lookup_singleton_Some in Hbranch as [<- [= <- <-]].
      rewrite path_map_lookup in Htarget.
      destruct (String.eqb label "researcher_agent"); [injection Htarget as <-; tauto|].
      destruct (String.eqb label "refusal"); [injection Htarget as <-; tauto|].
      discriminate Htarget.
  - intros [[-> ->] | [[-> Hb] | [Ha ->]]].
    + left. rewrite !elem_of_cons. tauto.
    + right. exists decide_next_node, path_map, b. split.
      * apply lookup_singleton_eq.
      * destruct Hb as [-> | ->]; reflexivity.
    + left. rewrite !elem_of_cons. destruct Ha as [-> | ->]; tauto.
Qed.

Lemma graph_step_deeper (a b : string) :
  graph_step the_graph a b -> (depth a < depth b)%nat.
Proof.
  rewrite graph_step_cases.
  intros [[-> ->] | [[-> [-> | ->]] | [[-> | ->] ->]]]; cbn; lia.
Qed.

Lemma graph_acyclic (a : string) : ~ clos_trans string (graph_step the_graph) a a.
Proof.
  assert (Hdeeper : forall x y,
            clos_trans string (graph_step the_graph) x y -> (depth x < depth y)%nat).
  { intros x y Hxy. induction Hxy as [x y Hstep | x y z _ IH1 _ IH2].
    - exact (graph_step_deeper _ _ Hstep).
    - lia. }
  intros Hloop. specialize (Hdeeper _ _ Hloop). lia.
Qed.

(** C8, amended.  A run starts the Classifier first and then at most one
    of Research and Refusal, no node twice: it starts exactly the node the
    router selects when the Classifier's model call and the router both
    return (as in every run that completes); when either raises, the run
    ends with that exception and no further node starts.  The graph's
    transitions are START to Classifier,
    Classifier to Research or Refusal, and these two to END; they form no
    cycle. *)
Theorem pipeline_flow (state : State) :
  let visited := nodes_started (events (invoke the_graph state)) in
  (visited = ["classifier_agent"]
   \/ visited = ["classifier_agent"; "researcher_agent"]
   \/ visited = ["classifier_agent"; "refusal"])
  /\ NoDup visited
  /\ (forall verdict label,
        llm_invoke ([SystemMessage (Text system_prompt_classifier)] ++ messages state)
          = Ok verdict ->
        decide_next_node {| messages := messages state ++ [verdict] |} = Ok label ->
        visited = ["classifier_agent"; label])
  /\ (forall final, outcome (invoke the_graph state) = Ok final ->
        visited = ["classifier_agent"; "researcher_agent"]
        \/ visited = ["classifier_agent"; "refusal"])
  /\ (forall a b, graph_step the_graph a b <->
        (a = START /\ b = "classifier_agent")
        \/ (a = "classifier_agent" /\ (b = "researcher_agent" \/ b = "refusal"))
        \/ ((a = "researcher_agent" \/ a = "refusal") /\ b = END))
  /\ (forall a, ~ clos_trans string (graph_step the_graph) a a)
  /\ (forall e,
        llm_invoke ([SystemMessage (Text system_prompt_classifier)] ++ messages state)
          = Raise e ->
        visited = ["classifier_agent"] /\ outcome (invoke the_graph state) = Raise e)
  /\ (forall verdict e,
        llm_invoke ([SystemMessage (Text system_prompt_classifier)] ++ messages state)
          = Ok verdict ->
        decide_next_node {| messages := messages state ++ [verdict] |} = Raise e ->
        visited = ["classifier_agent"] /\ outcome (invoke the_graph state) = Raise e).
Proof.
  cbv zeta.
  assert (Hshape :
    nodes_started (events (invoke the_graph state)) = ["classifier_agent"]
    \/ nodes_started (events (invoke the_graph state))
         = ["classifier_agent"; "researcher_agent"]
    \/ nodes_started (events (invoke the_graph state))
         = ["classifier_agent"; "refusal"]).
  { rewrite nodes_of_run.
    destruct (llm_invoke _) as [verdict|e]; [|tauto].
    destruct (decide_next_node _) as [label|e] eqn:Hlabel; [|tauto].
    destruct (router_labels _ _ Hlabel) as [-> | ->]; tauto. }
  split; [exact Hshape|]. split; [|split; [|split; [|split; [|split; [|split]]]]].
  - destruct Hshape as [-> | [-> | ->]]; repeat constructor;
      rewrite ?elem_of_cons, elem_of_nil; intros H; decompose [or] H;
      discriminate || contradiction.
  - intros verdict label Hllm Hlabel. rewrite nodes_of_run, Hllm, Hlabel.
    reflexivity.
  - intros final Hdone. rewrite nodes_of_run.
    rewrite invoke_cases in Hdone. cbv zeta in Hdone.
    destruct (llm_invoke _) as [verdict|e]; [|discriminate Hdone].
    destruct (decide_next_node _) as [label|e] eqn:Hlabel; [|discriminate Hdone].
    destruct (router_labels _ _ Hlabel) as [-> | ->]; tauto.
  - exact graph_step_cases.
  - exact graph_acyclic.
  - intros e Hllm. rewrite nodes_of_run, invoke_cases. cbv zeta. rewrite Hllm.
    split; reflexivity.
  - intros verdict e Hllm Hlabel. rewrite nodes_of_run, invoke_cases. cbv zeta.
    rewrite Hllm, Hlabel. split; reflexivity.
Qed.

(** C9. A label the router returns is "researcher_agent" or "refusal";
    these two are exactly the keys of the dict registered with the router
    on the Classifier node, so resolving the branch after the Classifier
    finds a node for the label. *)
Theorem router_label_is_mapped (state : State) (label : string) :
  decide_next_node state = Ok label ->
  (label = "researcher_agent" \/ label = "refusal")
  /\ branches the_graph !! "classifier_agent" = Some (decide_next_node, path_map)
  /\ dom path_map = {[ "researcher_agent"; "refusal" ]}
  /\ label ∈ dom path_map
  /\ next_node the_graph "classifier_agent" state = Ok label.
Proof.
  intros Hlabel. pose proof (router_labels _ _ Hlabel) as Htwo.
  assert (Hdom : dom path_map = ({[ "researcher_agent"; "refusal" ]} : gset string)).
  { unfold path_map. rewrite !dom_insert_L, dom_empty_L. set_solver. }
  split; [exact Htwo|]. split; [reflexivity|]. split; [exact Hdom|]. split.
  - rewrite Hdom. destruct Htwo as [-> | ->]; set_solver.
  - rewrite next_from_classifier, Hlabel.
    destruct Htwo as [-> | ->]; reflexivity.
Qed.

End PipelineFacts.

(** ** The pipeline on concrete requests *)

Import Scenario.

(** C2, as stated, fails: a request that completes leaves three messages in
    the state, not two, on the Refusal branch and on the Research branch
    alike; the Classifier's verdict stays in the state. *)
Lemma completed_request_keeps_verdict :
  outcome (invoke (graph (llm_says "irrelevant") agent_down prompt)
             {| messages := [HumanMessage (Text france_query)] |})
    = Ok {| messages := [HumanMessage (Text france_query);
                         AIMessage (Text "irrelevant");
                         AIMessage (Text "Your Query is not related to Cooking.")] |}
  /\ outcome (invoke (graph (llm_says "relevant") (agent_answers egg_answer) prompt)
                {| messages := [HumanMessage (Text egg_query)] |})
    = Ok {| messages := [HumanMessage (Text egg_query);
                         AIMessage (Text "relevant");
                         AIMessage (Text egg_answer)] |}
  /\ ~ (forall llm agent sys query final,
          outcome (invoke (graph llm agent sys) {| messages := [HumanMessage (Text query)] |})
            = Ok final ->
          length (messages final) = 2%nat).
Proof.
  split; [vm_compute; reflexivity | split; [vm_compute; reflexivity|]].
  intros Htwo.
  specialize (Htwo (llm_says "irrelevant") agent_down prompt france_query _ eq_refl).
  vm_compute in Htwo. discriminate Htwo.
Qed.

Lemma final_state_of_completed_request_witness :
  length [HumanMessage (Text egg_query); AIMessage (Text "relevant");
          AIMessage (Text egg_answer)] = 3%nat /\
  exists verdict answer,
    llm_says "relevant" [SystemMessage (Text prompt); HumanMessage (Text egg_query)]
      = Ok verdict /\
    [HumanMessage (Text egg_query); AIMessage (Text "relevant"); AIMessage (Text egg_answer)]
      = [HumanMessage (Text egg_query); verdict; AIMessage answer].
Proof.
  apply (final_state_of_completed_request
           (llm_says "relevant") (agent_answers egg_answer) prompt egg_query
           {| messages := [HumanMessage (Text egg_query); AIMessage (Text "relevant");
                           AIMessage (Text egg_answer)] |}).
  vm_compute. reflexivity.
Defined.

(** C3, as stated, fails: on a state of two messages the Research step
    hands the agent an empty chat history. *)
Lemma research_call_has_empty_history :
  agent_inputs (events (researcher_agent (agent_answers egg_answer)
                          (asked egg_query "relevant")))
    = [{| input := Text egg_query; chat_history := "" |}]
  /\ ~ (forall agent state a,
          In a (agent_inputs (events (researcher_agent agent state))) ->
          chat_history a <> "").
Proof.
  split; [reflexivity|].
  intros Hfull.
  apply (Hfull (agent_answers egg_answer) (asked egg_query "relevant")
           {| input := Text egg_query; chat_history := "" |}).
  - left. reflexivity.
  - reflexivity.
Qed.

Lemma researcher_asks_second_to_last_witness :
  exists m,
    messages (asked egg_query "relevant") !! 0%nat = Some m /\
    events (researcher_agent (agent_answers egg_answer) (asked egg_query "relevant"))
      = [AgentInvoke {| input := content m; chat_history := "" |}] /\
    outcome (run_node (researcher_agent (agent_answers egg_answer))
               (asked egg_query "relevant"))
      = Ok {| messages := [HumanMessage (Text egg_query); AIMessage (Text "relevant");
                           AIMessage (Text egg_answer)] |}.
Proof.
  destruct (researcher_asks_second_to_last (agent_answers egg_answer)
              (asked egg_query "relevant")) as (m & Hm & Hev & _ & Hout).
  - cbn. lia.
  - exists m. split; [exact Hm | split; [exact Hev | exact Hout]].
Defined.

Lemma researcher_input_ignores_verdict_witness :
  agent_inputs (events (researcher_agent agent_down (asked egg_query "relevant")))
    = agent_inputs (events (researcher_agent agent_down (asked egg_query "IRRELEVANT")))
  /\ agent_inputs (events (researcher_agent agent_down (asked egg_query "relevant")))
    = [{| input := Text egg_query; chat_history := "" |}].
Proof.
  apply (researcher_input_ignores_verdict agent_down
           (asked egg_query "relevant") (asked egg_query "IRRELEVANT")
           (HumanMessage (Text egg_query)) (HumanMessage (Text egg_query))).
  - cbn. lia.
  - cbn. lia.
  - reflexivity.
  - reflexivity.
  - reflexivity.
Defined.

Lemma endpoint_responses_witness :
  respond (outcome (cooking_endpoint (llm_says "relevant") (agent_answers egg_answer)
                      prompt egg_query))
    = Some {| status := 200; body := ResponseBody (Text egg_answer) |}
  /\ respond (outcome (cooking_endpoint llm_down (agent_answers egg_answer)
                         prompt egg_query))
    = Some {| status := 500; body := DetailBody "Connection error." |}.
Proof.
  split.
  - destruct (endpoint_responses (llm_says "relevant") (agent_answers egg_answer)
                prompt egg_query) as [Hok _].
    destruct (Hok _ eq_refl) as (m & Hm & Hresp).
    vm_compute in Hm. injection Hm as <-. exact Hresp.
  - destruct (endpoint_responses llm_down (agent_answers egg_answer)
                prompt egg_query) as (_ & Hfail & _).
    exact (Hfail (OtherException "Connection error.") eq_refl).
Defined.

(** C8, as stated, fails: when the Classifier's model call raises, the run
    ends after the Classifier; neither Research nor Refusal runs. *)
Lemma classifier_failure_ends_run :
  nodes_started (events (invoke (graph llm_down (agent_answers egg_answer) prompt)
                           {| messages := [HumanMessage (Text egg_query)] |}))
    = ["classifier_agent"]
  /\ outcome (invoke (graph llm_down (agent_answers egg_answer) prompt)
                {| messages := [HumanMessage (Text egg_query)] |})
    = Raise (OtherException "Connection error.")
  /\ ~ (forall llm agent sys state,
          nodes_started (events (invoke (graph llm agent sys) state))
            = ["classifier_agent"; "researcher_agent"]
          \/ nodes_started (events (invoke (graph llm agent sys) state))
            = ["classifier_agent"; "refusal"]).
Proof.
  split; [vm_compute; reflexivity | split; [vm_compute; reflexivity|]].
  intros Hflow.
  destruct (Hflow llm_down (agent_answers egg_answer) prompt
              {| messages := [HumanMessage (Text egg_query)] |}) as [H|H];
    vm_compute in H; discriminate H.
Qed.

Lemma pipeline_flow_witness :
  nodes_started (events (invoke (graph (llm_says "maybe?") agent_down prompt)
                           {| messages := [HumanMessage (Text france_query)] |}))
    = ["classifier_agent"; "refusal"]
  /\ (nodes_started (events (invoke (graph llm_down agent_down prompt)
                               {| messages := [HumanMessage (Text france_query)] |}))
        = ["classifier_agent"]
      /\ outcome (invoke (graph llm_down agent_down prompt)
                    {| messages := [HumanMessage (Text france_query)] |})
        = Raise (OtherException "Connection error.")).
Proof.
  split.
  - destruct (pipeline_flow (llm_says "maybe?") agent_down prompt
                {| messages := [HumanMessage (Text france_query)] |})
      as (_ & _ & Hnext & _).
    apply (Hnext (AIMessage (Text "maybe?"))); reflexivity.
  - destruct (pipeline_flow llm_down agent_down prompt
                {| messages := [HumanMessage (Text france_query)] |})
      as (_ & _ & _ & _ & _ & _ & Hraise & _).
    apply Hraise. reflexivity.
Defined.

Lemma router_label_is_mapped_witness :
  "refusal" ∈ dom path_map
  /\ next_node (graph llm_down agent_down prompt) "classifier_agent"
       (asked france_query "irrelevant") = Ok "refusal".
Proof.
  destruct (router_label_is_mapped llm_down agent_down prompt
              (asked france_query "irrelevant") "refusal") as (_ & _ & _ & Hin & Hnext).
  - reflexivity.
  - split; [exact Hin | exact Hnext].
Defined.

(** * Further properties of the nodes, the graph and the handler *)

Lemma lower_length (s : string) : String.length (lower s) = String.length s.
Proof. induction s as [|c s IH]; cbn; [|rewrite IH]; reflexivity. Qed.

Lemma agent_inputs_app (evs evs' : list Event) :
  agent_inputs (evs ++ evs') = agent_inputs evs ++ agent_inputs evs'.
Proof.
  induction evs as [|ev evs IH]; [reflexivity|].
  destruct ev; cbn; rewrite IH; reflexivity.
Qed.

Section RequestFacts.

Variable llm_invoke : list Message -> Result Message.
Variable agent_executor_researcher_invoke : AgentInput -> Result string.
Variable system_prompt_classifier : string.

Local Abbreviation classifier := (classifier_agent llm_invoke system_prompt_classifier).
Local Abbreviation researcher := (researcher_agent agent_executor_researcher_invoke).
Local Abbreviation the_graph :=
  (graph llm_invoke agent_executor_researcher_invoke system_prompt_classifier).
Local Abbreviation endpoint :=
  (cooking_endpoint llm_invoke agent_executor_researcher_invoke system_prompt_classifier).
Local Abbreviation refusal_text := "Your Query is not related to Cooking.".

(** The handler on a query, by what the model call, the router and the
    agent do *)
Lemma endpoint_cases (query : string) :
  endpoint query =
    let ms := [SystemMessage (Text system_prompt_classifier); HumanMessage (Text query)] in
    let failed evs e :=
      mkRun evs (Ok (inl {| status_code := 500; detail := str e |})) in
    match llm_invoke ms with
    | Raise e =>
        failed [NodeStarted "classifier_agent"; LoggerCritical ms; LLMInvoke ms] e
    | Ok verdict =>
        let before := [NodeStarted "classifier_agent"; LoggerCritical ms;
                       LLMInvoke ms; LoggerCritical [verdict]] in
        match decide_next_node {| messages := [HumanMessage (Text query); verdict] |} with
        | Raise e => failed before e
        | Ok label =>
            if String.eqb label "researcher_agent" then
              let question := {| input := Text query; chat_history := "" |} in
              let evs := before ++ [NodeStarted "researcher_agent"; AgentInvoke question] in
              match agent_executor_researcher_invoke question with
              | Ok answer => mkRun evs (Ok (inr (ResponseBody (Text answer))))
              | Raise e => failed evs e
              end
            else
              mkRun (before ++ [NodeStarted "refusal"])
                    (Ok (inr (ResponseBody (Text refusal_text))))
        end
    end.
Proof.
  unfold cooking_endpoint. rewrite invoke_cases. cbv zeta. cbn [messages app].
  destruct (llm_invoke _) as [verdict|e]; [|reflexivity].
  destruct (decide_next_node _) as [label|e]; [|reflexivity].
  destruct (String.eqb label "researcher_agent"); [|reflexivity].
  unfold run_node.
  rewrite (researcher_runs agent_executor_researcher_invoke
             {| messages := [HumanMessage (Text query); verdict] |}
             [] (HumanMessage (Text query)) verdict eq_refl).
  cbv zeta. cbn [content].
  destruct (agent_executor_researcher_invoke _) as [answer|e]; reflexivity.
Qed.

(** X1. On a state with fewer than two messages the Research step raises
    [IndexError] before it calls the agent: it causes no event at all. *)
Theorem researcher_needs_two_messages (state : State) :
  (length (messages state) < 2)%nat ->
  researcher state = mkRun [] (Raise (IndexError "list index out of range")).
Proof. intros Hlen. exact (researcher_short _ _ Hlen). Qed.

(** X2. The Classifier step calls the model once, on the system instruction
    followed by the state's messages.  Whatever message the call returns is
    appended to the state unchanged (no validation), after the earlier
    messages, and is logged; when the call raises, the same exception ends
    the step, with only the log record made before the call. *)
Theorem classifier_appends_raw_reply (state : State) :
  let ms := [SystemMessage (Text system_prompt_classifier)] ++ messages state in
  llm_inputs (events (run_node classifier state)) = [ms]
  /\ (forall verdict, llm_invoke ms = Ok verdict ->
        run_node classifier state =
          mkRun [LoggerCritical ms; LLMInvoke ms; LoggerCritical [verdict]]
                (Ok {| messages := messages state ++ [verdict] |}))
  /\ (forall e, llm_invoke ms = Raise e ->
        run_node classifier state = mkRun [LoggerCritical ms; LLMInvoke ms] (Raise e)).
Proof.
  cbv zeta. rewrite classifier_step. cbv zeta.
  destruct (llm_invoke _) as [verdict|e]; (split; [reflexivity | split]).
  - intros verdict' [= <-]. reflexivity.
  - discriminate.
  - discriminate.
  - intros e' [= <-]. reflexivity.
Qed.

(** X3. A run of the graph on an input of at most one message, of any
    class and content, only appends: when it completes, the final state is
    the input followed by exactly two more messages, the model's verdict and
    one assistant message with text. *)
Theorem run_appends_two_messages (state final : State) :
  (length (messages state) <= 1)%nat ->
  outcome (invoke the_graph state) = Ok final ->
  exists verdict answer,
    llm_invoke ([SystemMessage (Text system_prompt_classifier)] ++ messages state)
      = Ok verdict /\
    messages final = messages state ++ [verdict; AIMessage (Text answer)].
Proof.
  intros _. rewrite invoke_cases. cbv zeta.
  destruct (llm_invoke _) as [verdict|e]; [|discriminate].
  destruct (decide_next_node _) as [label|e]; [|discriminate].
  destruct (String.eqb label "researcher_agent").
  - cbn [outcome]. unfold run_node.
    destruct (decide (messages state = [])) as [Hnil|Hne].
    + rewrite (researcher_short agent_executor_researcher_invoke
                 {| messages := messages state ++ [verdict] |})
        by (cbn [messages]; rewrite Hnil; cbn; lia).
      discriminate.
    + destruct (exists_last Hne) as [pre [m Hms]].
      rewrite (researcher_runs agent_executor_researcher_invoke
                 {| messages := messages state ++ [verdict] |} pre m verdict)
        by (cbn [messages]; rewrite Hms, <- app_assoc; reflexivity).
      cbv zeta.
      destruct (agent_executor_researcher_invoke _) as [answer|e]; [|discriminate].
      intros [= <-]. exists verdict, answer. split; [reflexivity|].
      cbn. unfold add_messages. rewrite <- app_assoc. reflexivity.
  - intros [= <-]. exists verdict, refusal_text. split; [reflexivity|].
    cbn [messages]. rewrite <- app_assoc. reflexivity.
Qed.

(** X4. On an input of one message, of any class and content, when the
    router selects the Research step, the question the agent is asked is
    that message's content as it is, with an empty chat history, and it is
    the only call to the agent in the run. *)
Theorem research_asks_the_input_message (state : State) (m verdict : Message) :
  messages state = [m] ->
  llm_invoke ([SystemMessage (Text system_prompt_classifier)] ++ messages state)
    = Ok verdict ->
  decide_next_node {| messages := messages state ++ [verdict] |} = Ok "researcher_agent" ->
  agent_inputs (events (invoke the_graph state))
    = [{| input := content m; chat_history := "" |}].
Proof.
  intros Hone Hllm Hlabel.
  assert (Hlast : last (messages state) = Some m) by (rewrite Hone; reflexivity).
  clear Hone. rewrite invoke_cases. cbv zeta.
  rewrite Hllm, Hlabel. cbn [String.eqb Ascii.eqb Bool.eqb events].
  apply last_Some in Hlast as [pre Hms].
  unfold run_node.
  rewrite (researcher_runs agent_executor_researcher_invoke
             {| messages := messages state ++ [verdict] |} pre m verdict)
    by (cbn [messages]; rewrite Hms, <- app_assoc; reflexivity).
  cbv zeta. rewrite bind_events. cbn [outcome events].
  destruct (agent_executor_researcher_invoke _); reflexivity.
Qed.

(** X5. On an input state with no message, when the router selects the
    Research step, the run ends with [IndexError] after the Classifier and
    the agent is never called. *)
Theorem research_on_empty_input_fails (state : State) (verdict : Message) :
  messages state = [] ->
  llm_invoke [SystemMessage (Text system_prompt_classifier)] = Ok verdict ->
  decide_next_node {| messages := [verdict] |} = Ok "researcher_agent" ->
  outcome (invoke the_graph state) = Raise (IndexError "list index out of range")
  /\ agent_inputs (events (invoke the_graph state)) = []
  /\ nodes_started (events (invoke the_graph state))
     = ["classifier_agent"; "researcher_agent"].
Proof.
  intros Hnil Hllm Hlabel. rewrite invoke_cases. cbv zeta. rewrite Hnil.
  cbn [app]. rewrite Hllm, Hlabel. cbn [String.eqb Ascii.eqb Bool.eqb events outcome].
  unfold run_node.
  rewrite (researcher_short agent_executor_researcher_invoke {| messages := [verdict] |})
    by (cbn; lia).
  repeat split.
Qed.

(** X6. A request makes one call to the model, on the system instruction and
    the user's query, and after it at most one call to the agent, on the
    query's text with an empty chat history; the agent is called exactly
    when the model call returned and the router selected the Research step. *)
Theorem request_external_calls (query : string) :
  let ms := [SystemMessage (Text system_prompt_classifier); HumanMessage (Text query)] in
  external_calls (endpoint query) =
    LLMInvoke ms ::
      match llm_invoke ms with
      | Ok verdict =>
          match decide_next_node {| messages := [HumanMessage (Text query); verdict] |} with
          | Ok "researcher_agent" =>
              [AgentInvoke {| input := Text query; chat_history := "" |}]
          | _ => []
          end
      | Raise _ => []
      end.
Proof.
  cbv zeta. rewrite endpoint_cases. cbv zeta.
  destruct (llm_invoke _) as [verdict|e]; [|reflexivity].
  destruct (decide_next_node _) as [label|e] eqn:Hlabel; [|reflexivity].
  destruct (router_labels _ _ Hlabel) as [-> | ->].
  - cbn [String.eqb Ascii.eqb Bool.eqb].
    destruct (agent_executor_researcher_invoke _); reflexivity.
  - reflexivity.
Qed.

(** X7. When the model's verdict makes the router select Refusal, the
    request is answered 200 with the fixed refusal text and the agent is
    not called. *)
Theorem refused_request (query : string) (verdict : Message) :
  llm_invoke [SystemMessage (Text system_prompt_classifier); HumanMessage (Text query)]
    = Ok verdict ->
  decide_next_node {| messages := [HumanMessage (Text query); verdict] |} = Ok "refusal" ->
  respond (outcome (endpoint query))
    = Some {| status := 200; body := ResponseBody (Text refusal_text) |}
  /\ agent_inputs (events (endpoint query)) = []
  /\ nodes_started (events (endpoint query)) = ["classifier_agent"; "refusal"].
Proof.
  intros Hllm Hlabel. rewrite endpoint_cases. cbv zeta. rewrite Hllm, Hlabel.
  repeat split.
Qed.

(** X8. When the model's verdict is an assistant message whose text
    lowercased is "relevant", the agent is asked the query's text once; the
    request is answered 200 with the agent's output, or, when the agent
    raises [e], 500 with [str e]. *)
Theorem researched_request (query s : string) :
  llm_invoke [SystemMessage (Text system_prompt_classifier); HumanMessage (Text query)]
    = Ok (AIMessage (Text s)) ->
  lower s = "relevant" ->
  agent_inputs (events (endpoint query))
    = [{| input := Text query; chat_history := "" |}]
  /\ respond (outcome (endpoint query)) =
       match agent_executor_researcher_invoke {| input := Text query; chat_history := "" |} with
       | Ok answer => Some {| status := 200; body := ResponseBody (Text answer) |}
       | Raise e => Some {| status := 500; body := DetailBody (str e) |}
       end.
Proof.
  intros Hllm Hrel. rewrite endpoint_cases. cbv zeta. rewrite Hllm.
  rewrite (router_on_text {| messages := [HumanMessage (Text query); AIMessage (Text s)] |}
             s eq_refl).
  rewrite Hrel. cbn [String.eqb Ascii.eqb Bool.eqb].
  destruct (agent_executor_researcher_invoke _); split; reflexivity.
Qed.

(** X9. When the model call raises [e], the request is answered 500 with
    [str e]; the model call is the only external call, and no node after
    the Classifier runs. *)
Theorem request_with_model_failure (query : string) (e : Exn) :
  llm_invoke [SystemMessage (Text system_prompt_classifier); HumanMessage (Text query)]
    = Raise e ->
  respond (outcome (endpoint query))
    = Some {| status := 500; body := DetailBody (str e) |}
  /\ external_calls (endpoint query)
     = [LLMInvoke [SystemMessage (Text system_prompt_classifier); HumanMessage (Text query)]]
  /\ nodes_started (events (endpoint query)) = ["classifier_agent"].
Proof.
  intros Hllm. rewrite endpoint_cases. cbv zeta. rewrite Hllm. repeat split.
Qed.

(** X10. When the model's verdict is an assistant message whose content is
    a list of blocks rather than text, the router's [lower] call raises and
    the request is answered 500 with the [AttributeError] text: it is not
    routed to Refusal, and the agent is not called. *)
Theorem request_with_block_verdict (query : string) (parts : list string) :
  llm_invoke [SystemMessage (Text system_prompt_classifier); HumanMessage (Text query)]
    = Ok (AIMessage (Blocks parts)) ->
  respond (outcome (endpoint query))
    = Some {| status := 500;
              body := DetailBody "'list' object has no attribute 'lower'" |}
  /\ nodes_started (events (endpoint query)) = ["classifier_agent"]
  /\ agent_inputs (events (endpoint query)) = [].
Proof.
  intros Hllm. rewrite endpoint_cases. cbv zeta. rewrite Hllm. repeat split.
Qed.

(** X11. A request is answered 500 only for an exception of the model call,
    of the router on the verdict, or of the agent: the graph run adds no
    failure of its own (no recursion limit reached, no unknown node, no
    unmapped label, no failed indexing in the Research step or in the
    handler). *)
Theorem request_failure_sources (query : string) (d : string) :
  respond (outcome (endpoint query)) = Some {| status := 500; body := DetailBody d |} ->
  let ms := [SystemMessage (Text system_prompt_classifier); HumanMessage (Text query)] in
  (exists e, llm_invoke ms = Raise e /\ d = str e)
  \/ (exists verdict e,
        llm_invoke ms = Ok verdict /\
        decide_next_node {| messages := [HumanMessage (Text query); verdict] |} = Raise e /\
        d = str e)
  \/ (exists verdict e,
        llm_invoke ms = Ok verdict /\
        decide_next_node {| messages := [HumanMessage (Text query); verdict] |}
          = Ok "researcher_agent" /\
        agent_executor_researcher_invoke {| input := Text query; chat_history := "" |}
          = Raise e /\
        d = str e).
Proof.
  rewrite endpoint_cases. cbv zeta.
  destruct (llm_invoke _) as [verdict|e].
  - destruct (decide_next_node _) as [label|e] eqn:Hlabel.
    + destruct (router_labels _ _ Hlabel) as [-> | ->].
      * cbn [String.eqb Ascii.eqb Bool.eqb].
        destruct (agent_executor_researcher_invoke _) as [answer|e] eqn:Hagent.
        -- discriminate.
        -- intros [= <-]. right; right. exists verdict, e.
           repeat split; assumption.
      * discriminate.
    + intros [= <-]. right; left. exists verdict, e.
      repeat split; try assumption.
  - intros [= <-]. left. exists e. split; reflexivity.
Qed.

(** X12. The graph built by [graph_builder] is well formed: its nodes are the
    three registered ones; every transition starts at START or at a node and
    ends at a node or at END; every node is reached from START and reaches
    END. *)
Theorem graph_is_well_formed :
  dom (nodes the_graph) = {[ "classifier_agent"; "refusal"; "researcher_agent" ]}
  /\ (forall a b, graph_step the_graph a b ->
        (a = START \/ a ∈ dom (nodes the_graph)) /\
        (b = END \/ b ∈ dom (nodes the_graph)))
  /\ (forall n, n ∈ dom (nodes the_graph) ->
        clos_trans string (graph_step the_graph) START n /\
        clos_trans string (graph_step the_graph) n END).
Proof.
  assert (Hdom : dom (nodes the_graph)
                 = ({[ "classifier_agent"; "refusal"; "researcher_agent" ]} : gset string)).
  { unfold graph, graph_builder, add_edge, add_conditional_edges, add_node, empty_graph.
    cbn [nodes]. rewrite !dom_insert_L, dom_empty_L. set_solver. }
  assert (Hstart : graph_step the_graph START "classifier_agent")
    by (apply graph_step_cases; tauto).
  assert (Hresearch : graph_step the_graph "classifier_agent" "researcher_agent")
    by (apply graph_step_cases; tauto).
  assert (Hrefusal : graph_step the_graph "classifier_agent" "refusal")
    by (apply graph_step_cases; tauto).
  assert (Hresearch_end : graph_step the_graph "researcher_agent" END)
    by (apply graph_step_cases; tauto).
  assert (Hrefusal_end : graph_step the_graph "refusal" END)
    by (apply graph_step_cases; tauto).
  split; [exact Hdom|]. rewrite Hdom. split.
  - intros a b Hstep. apply graph_step_cases in Hstep.
    destruct Hstep as [[-> ->] | [[-> [-> | ->]] | [[-> | ->] ->]]];
      split; (left; reflexivity) || (right; set_solver).
  - intros n Hn.
    rewrite !elem_of_union, !elem_of_singleton in Hn.
    destruct Hn as [[-> | ->] | ->]; split.
    + apply t_step. exact Hstart.
    + eapply t_trans; apply t_step; [exact Hrefusal | exact Hrefusal_end].
    + eapply t_trans; apply t_step; [exact Hstart | exact Hrefusal].
    + apply t_step. exact Hrefusal_end.
    + eapply t_trans; apply t_step; [exact Hstart | exact Hresearch].
    + apply t_step. exact Hresearch_end.
Qed.


End RequestFacts.

(** X13. The router does no trimming: when the last message is an assistant
    message whose text is not exactly eight characters long (padding, a
    trailing newline or full stop, an explanation), it selects Refusal. *)
Theorem router_refuses_other_lengths (state : State) (s : string) :
  last (messages state) = Some (AIMessage (Text s)) ->
  String.length s <> 8%nat ->
  decide_next_node state = Ok "refusal".
Proof.
  intros Hlast Hlen. rewrite (router_on_text _ _ Hlast).
  destruct (String.eqb_spec (lower s) "relevant") as [Heq|_]; [|reflexivity].
  exfalso. apply Hlen. rewrite <- lower_length, Heq. reflexivity.
Qed.

(** ** The further properties on concrete requests *)

Lemma researcher_needs_two_messages_witness :
  researcher_agent agent_down {| messages := [HumanMessage (Text egg_query)] |}
    = mkRun [] (Raise (IndexError "list index out of range")).
Proof.
  apply (researcher_needs_two_messages agent_down
           {| messages := [HumanMessage (Text egg_query)] |}).
  cbn. lia.
Defined.

Lemma run_appends_two_messages_witness :
  exists verdict answer,
    llm_says "relevant"
        ([SystemMessage (Text prompt)] ++ [HumanMessage (Blocks ["How do I"; "boil an egg?"])])
      = Ok verdict /\
    [HumanMessage (Blocks ["How do I"; "boil an egg?"]);
     AIMessage (Text "relevant"); AIMessage (Text egg_answer)]
      = [HumanMessage (Blocks ["How do I"; "boil an egg?"])]
        ++ [verdict; AIMessage (Text answer)].
Proof.
  apply (run_appends_two_messages (llm_says "relevant") (agent_answers egg_answer) prompt
           {| messages := [HumanMessage (Blocks ["How do I"; "boil an egg?"])] |}
           {| messages := [HumanMessage (Blocks ["How do I"; "boil an egg?"]);
                           AIMessage (Text "relevant"); AIMessage (Text egg_answer)] |}).
  - cbn. lia.
  - vm_compute. reflexivity.
Defined.

Lemma research_asks_the_input_message_witness :
  agent_inputs
    (events (invoke (graph (llm_says "relevant") agent_down prompt)
               {| messages := [HumanMessage (Blocks ["How do I"; "boil an egg?"])] |}))
    = [{| input := Blocks ["How do I"; "boil an egg?"]; chat_history := "" |}].
Proof.
  apply (research_asks_the_input_message (llm_says "relevant") agent_down prompt
           {| messages := [HumanMessage (Blocks ["How do I"; "boil an egg?"])] |}
           (HumanMessage (Blocks ["How do I"; "boil an egg?"]))
           (AIMessage (Text "relevant")));
    reflexivity.
Defined.

Lemma research_on_empty_input_fails_witness :
  outcome (invoke (graph (llm_says "relevant") (agent_answers egg_answer) prompt)
             {| messages := [] |})
    = Raise (IndexError "list index out of range")
  /\ agent_inputs (events (invoke (graph (llm_says "relevant") (agent_answers egg_answer)
                                     prompt) {| messages := [] |})) = []
  /\ nodes_started (events (invoke (graph (llm_says "relevant") (agent_answers egg_answer)
                                      prompt) {| messages := [] |}))
     = ["classifier_agent"; "researcher_agent"].
Proof.
  apply (research_on_empty_input_fails (llm_says "relevant") (agent_answers egg_answer)
           prompt {| messages := [] |} (AIMessage (Text "relevant")));
    reflexivity.
Defined.

Lemma refused_request_witness :
  respond (outcome (cooking_endpoint (llm_says "maybe?") agent_down prompt france_query))
    = Some {| status := 200;
              body := ResponseBody (Text "Your Query is not related to Cooking.") |}
  /\ agent_inputs (events (cooking_endpoint (llm_says "maybe?") agent_down prompt
                             france_query)) = []
  /\ nodes_started (events (cooking_endpoint (llm_says "maybe?") agent_down prompt
                              france_query))
     = ["classifier_agent"; "refusal"].
Proof.
  apply (refused_request (llm_says "maybe?") agent_down prompt france_query
           (AIMessage (Text "maybe?")));
    reflexivity.
Defined.

Lemma researched_request_witness :
  agent_inputs (events (cooking_endpoint (llm_says "RELEVANT") (agent_answers egg_answer)
                          prompt egg_query))
    = [{| input := Text egg_query; chat_history := "" |}]
  /\ respond (outcome (cooking_endpoint (llm_says "RELEVANT") (agent_answers egg_answer)
                         prompt egg_query))
     = Some {| status := 200; body := ResponseBody (Text egg_answer) |}.
Proof.
  apply (researched_request (llm_says "RELEVANT") (agent_answers egg_answer) prompt
           egg_query "RELEVANT");
    reflexivity.
Defined.

Lemma request_with_model_failure_witness :
  respond (outcome (cooking_endpoint llm_down agent_down prompt egg_query))
    = Some {| status := 500; body := DetailBody "Connection error." |}
  /\ external_calls (cooking_endpoint llm_down agent_down prompt egg_query)
     = [LLMInvoke [SystemMessage (Text prompt); HumanMessage (Text egg_query)]]
  /\ nodes_started (events (cooking_endpoint llm_down agent_down prompt egg_query))
     = ["classifier_agent"].
Proof.
  apply (request_with_model_failure llm_down agent_down prompt egg_query
           (OtherException "Connection error.")).
  reflexivity.
Defined.

Lemma request_with_block_verdict_witness :
  respond (outcome (cooking_endpoint llm_blocks agent_down prompt egg_query))
    = Some {| status := 500;
              body := DetailBody "'list' object has no attribute 'lower'" |}
  /\ nodes_started (events (cooking_endpoint llm_blocks agent_down prompt egg_query))
     = ["classifier_agent"]
  /\ agent_inputs (events (cooking_endpoint llm_blocks agent_down prompt egg_query)) = [].
Proof.
  apply (request_with_block_verdict llm_blocks agent_down prompt egg_query ["relevant"]).
  reflexivity.
Defined.

Lemma request_failure_sources_witness :
  (exists e,
     llm_says "relevant" [SystemMessage (Text prompt); HumanMessage (Text egg_query)]
       = Raise e /\ "Agent stopped without output." = str e)
  \/ (exists verdict e,
        llm_says "relevant" [SystemMessage (Text prompt); HumanMessage (Text egg_query)]
          = Ok verdict /\
        decide_next_node {| messages := [HumanMessage (Text egg_query); verdict] |}
          = Raise e /\
        "Agent stopped without output." = str e)
  \/ (exists verdict e,
        llm_says "relevant" [SystemMessage (Text prompt); HumanMessage (Text egg_query)]
          = Ok verdict /\
        decide_next_node {| messages := [HumanMessage (Text egg_query); verdict] |}
          = Ok "researcher_agent" /\
        agent_down {| input := Text egg_query; chat_history := "" |} = Raise e /\
        "Agent stopped without output." = str e).
Proof.
  apply (request_failure_sources (llm_says "relevant") agent_down prompt egg_query
           "Agent stopped without output.").
  reflexivity.
Defined.

Lemma router_refuses_other_lengths_witness :
  decide_next_node (asked egg_query "Relevant.") = Ok "refusal".
Proof.
  apply (router_refuses_other_lengths (asked egg_query "Relevant.") "Relevant.").
  - reflexivity.
  - cbn. lia.
Defined.

